(** * YouTube transcript extractor: a shallow embedding of [yt_transcript.py]

    The development follows the source file top to bottom: the string and
    regular-expression primitives the extractor relies on, the effects it
    performs (remote calls, printing, sleeping, file writes) as a state and
    exception monad, the methods of [YouTubeTranscriptExtractor], and then
    the properties of the resolver, the enumerator, the fetcher and the
    batch loop.

    Python [str] values are modelled by [string]; a character stands for a
    code point below 256. *)

From Stdlib Require Import String Ascii List ZArith Lia Bool DecimalString.
From Stdlib Require QArith.
Import ListNotations.
Local Open Scope string_scope.

(** ** Python string primitives *)

Module PyStr.

(** [needle in s]. *)
Fixpoint contains (needle s : string) : bool :=
  prefix needle s ||
  match s with
  | EmptyString => false
  | String _ r => contains needle r
  end.

(** [s.split(sep)] for a non-empty separator: [skip] counts the characters
    of a separator occurrence still to be passed over, [cur] is the part
    being accumulated. *)
Fixpoint split_go (sep : string) (skip : nat) (cur s : string) : list string :=
  match s with
  | EmptyString => [cur]
  | String c r =>
      match skip with
      | S k => split_go sep k cur r
      | O =>
          if prefix sep s
          then cur :: split_go sep (String.length sep - 1) "" r
          else split_go sep 0 (cur ++ String c "") r
      end
  end.

Definition split (sep s : string) : list string := split_go sep 0 "" s.

(** [" ".join(parts)] and friends. *)
Definition join (sep : string) (parts : list string) : string :=
  String.concat sep parts.

(** [str.isspace] on one character, which is also what [\s] matches in a
    [str] pattern: TAB, LF, VT, FF, CR, the separators 0x1c-0x1f, the
    space, NEL (0x85) and the no-break space (0xa0). *)
Definition isspace (c : ascii) : bool :=
  let n := nat_of_ascii c in
  (((9 <=? n) && (n <=? 13)) || ((28 <=? n) && (n <=? 32))
   || (n =? 133) || (n =? 160))%nat.

Fixpoint lstrip (s : string) : string :=
  match s with
  | EmptyString => ""
  | String c r => if isspace c then lstrip r else s
  end.

Fixpoint rstrip (s : string) : string :=
  match s with
  | EmptyString => ""
  | String c r =>
      match rstrip r with
      | EmptyString => if isspace c then "" else String c ""
      | r' => String c r'
      end
  end.

(** [s.strip()]. *)
Definition strip (s : string) : string := rstrip (lstrip s).

(** Truth value of a [str]: the empty string is false. *)
Definition truthy (s : string) : bool :=
  match s with EmptyString => false | _ => true end.

(** Truth value of an [Optional[str]]: [None] and [""] are false. *)
Definition truthy_opt (o : option string) : bool :=
  match o with None => false | Some s => truthy s end.

(** [str(n)] for a natural number. *)
Definition str_of_nat (n : nat) : string :=
  NilEmpty.string_of_uint (Nat.to_uint n).

End PyStr.

(** ** The regular expressions of the source, as matchers *)

Module Re.

(** The class [[0-9A-Za-z_-]]. *)
Definition is_id_char (c : ascii) : bool :=
  let n := nat_of_ascii c in
  (((48 <=? n) && (n <=? 57)) || ((65 <=? n) && (n <=? 90))
   || ((97 <=? n) && (n <=? 122)) || (n =? 95) || (n =? 45))%nat.

(** [[0-9A-Za-z_-]{n}] anchored at the start of [s]: the matched text and
    what follows it. *)
Fixpoint take_id (n : nat) (s : string) : option (string * string) :=
  match n with
  | O => Some ("", s)
  | S k =>
      match s with
      | EmptyString => None
      | String c r =>
          if is_id_char c
          then match take_id k r with
               | Some (m, rest) => Some (String c m, rest)
               | None => None
               end
          else None
      end
  end.

(** The pattern [(?:v=|\/)([0-9A-Za-z_-]{11}).*] tried at the start of [s];
    the result is group 1.  The trailing [.*] also matches the empty text,
    so it never makes the match fail. *)
Definition video_id_at (s : string) : option string :=
  match s with
  | EmptyString => None
  | String c r =>
      let alt_v :=
        match r with
        | String d r2 =>
            if (Ascii.eqb c "v" && Ascii.eqb d "=")%bool
            then option_map fst (take_id 11 r2) else None
        | EmptyString => None
        end in
      match alt_v with
      | Some m => Some m
      | None =>
          if Ascii.eqb c "/" then option_map fst (take_id 11 r) else None
      end
  end.

(** [re.search(r'(?:v=|\/)([0-9A-Za-z_-]{11}).*', s)], returning group 1 of
    the leftmost match. *)
Fixpoint search_video_id (s : string) : option string :=
  match video_id_at s with
  | Some m => Some m
  | None =>
      match s with
      | EmptyString => None
      | String _ r => search_video_id r
      end
  end.

(** [re.match(r'^[0-9A-Za-z_-]{11}$', s)] as a truth value; [$] matches at
    the end of the text and also just before a final line feed. *)
Definition match_bare_id (s : string) : bool :=
  match take_id 11 s with
  | Some (_, rest) => String.eqb rest "" || String.eqb rest (String "010" "")
  | None => false
  end.

(** [[^&]+] anchored at the start of [s]: the longest run of characters
    other than [&]. *)
Fixpoint take_not_amp (s : string) : string :=
  match s with
  | EmptyString => ""
  | String c r => if Ascii.eqb c "&" then "" else String c (take_not_amp r)
  end.

(** [re.search(r'list=([^&]+)', s)], returning group 1 of the leftmost
    match. *)
Fixpoint search_list_param (s : string) : option string :=
  match s with
  | EmptyString => None
  | String _ r =>
      if prefix "list=" s
      then match take_not_amp (substring 5 (String.length s - 5) s) with
           | EmptyString => search_list_param r
           | m => Some m
           end
      else search_list_param r
  end.

(** [re.sub(r'\s+', ' ', s)]: every maximal run of whitespace becomes one
    space; [in_run] tells that the previous character was whitespace. *)
Fixpoint sub_ws_from (in_run : bool) (s : string) : string :=
  match s with
  | EmptyString => ""
  | String c r =>
      if PyStr.isspace c
      then if in_run then sub_ws_from true r
           else String " " (sub_ws_from true r)
      else String c (sub_ws_from false r)
  end.

Definition sub_ws (s : string) : string := sub_ws_from false s.

End Re.

(** ** Identifier Resolver *)

(** [extract_video_id_from_url]: [None] is Python's [None]. *)
Definition extract_video_id_from_url (url : string) : option string :=
  if PyStr.contains "youtu.be" url
  then Some (hd "" (PyStr.split "?" (last (PyStr.split "/" url) "")))
  else
    match Re.search_video_id url with
    | Some m => Some m
    | None => if Re.match_bare_id url then Some url else None
    end.

(** ** Effects: exceptions, the remote services, the world *)

(** The exceptions that matter to the control flow.  [OSError] stands for
    the class and its subclasses ([FileNotFoundError], [FileExistsError],
    [NotADirectoryError], [IsADirectoryError], [PermissionError], ...);
    [OtherError] stands for any other exception that no handler of the
    source names (a network failure, a [KeyError] on a response of an
    unexpected shape, ...). *)
Inductive exn : Type :=
| ValueError (msg : string)
| HttpError (msg : string)
| TranscriptsDisabled (msg : string)
| NoTranscriptFound (msg : string)
| AttributeError (msg : string)
| IndexError (msg : string)
| OSError (msg : string)
| OverflowError (msg : string)
| OtherError (msg : string).

(** [str(e)]. *)
Definition exn_str (e : exn) : string :=
  match e with
  | ValueError m | HttpError m | TranscriptsDisabled m | NoTranscriptFound m
  | AttributeError m | IndexError m | OSError m | OverflowError m
  | OtherError m => m
  end.

(** The value found under ['id'] in an item of a response: a string in a
    [channels().list] response, an object in a [search().list] one. *)
Inductive IdValue : Type :=
| IdStr (s : string)
| IdObj (kind channelId : string).

(** The calls the extractor makes on its two collaborators, the transcript
    library and the client of the Data API. *)
Inductive Call : Type :=
| GetTranscript (video_id : string)
| ListTranscripts (video_id : string)
| FindTranscript (video_id : string) (languages : list string)
| FetchTranscript (video_id : string) (language : string)
| PlaylistItemsList (playlistId : string) (maxResults : Z)
                    (pageToken : option string)
| ChannelsListById (id : IdValue)
| SearchChannel (q : string)
| ChannelsListForUsername (username : string).

(** What comes back: an exception, or a response reduced to the fields the
    source reads. *)
Inductive Reply : Type :=
| Raises (e : exn)
| Segments (texts : list string)
| TranscriptList
| Transcript
| PlaylistPage (videoIds : list string) (nextPageToken : option string)
| ChannelUploads (uploads : list string)
| ItemIds (ids : list IdValue).

Definition Exchange : Type := Call * Reply.

(** The collaborators answer a call knowing every exchange so far. *)
Definition Remote : Type := list Exchange -> Call -> Reply.

(** The two operations by which the source changes the file system. *)
Inductive FileOp : Type :=
| MakeDirs (path : string)
| OpenForWriting (path : string).

(** Paths are told apart as texts.  [refused] holds what the system turns
    down for a reason the other fields do not record (permissions, a full
    disk, a read-only file system), with the message of the [OSError]. *)
Record World : Type := mkWorld {
  exchanges : list Exchange;          (* calls made, oldest first *)
  stdout : list string;               (* texts printed, oldest first *)
  dirs : list string;                 (* directories that exist *)
  files : list (string * string);     (* files and their contents *)
  sleeps : list QArith_base.Q;        (* [time.sleep] calls, oldest first *)
  refused : FileOp -> option string   (* operations the system turns down *)
}.

(** How a computation ends: it returns, it raises, or it has used up the
    iterations allowed to its [while True] loop. *)
Inductive Outcome (A : Type) : Type :=
| Ret (a : A)
| Raise (e : exn)
| OutOfFuel.
Arguments Ret {A} a.
Arguments Raise {A} e.
Arguments OutOfFuel {A}.

Definition M (A : Type) : Type := World -> Outcome A * World.

Definition ret {A} (a : A) : M A := fun w => (Ret a, w).
Definition raise {A} (e : exn) : M A := fun w => (Raise e, w).
Definition out_of_fuel {A} : M A := fun w => (OutOfFuel, w).

Definition bind {A B} (m : M A) (k : A -> M B) : M B :=
  fun w =>
    match m w with
    | (Ret a, w') => k a w'
    | (Raise e, w') => (Raise e, w')
    | (OutOfFuel, w') => (OutOfFuel, w')
    end.

Notation "x <- m ;; k" := (bind m (fun x => k))
  (at level 61, m at next level, right associativity).
Notation "m ;; k" := (bind m (fun _ => k))
  (at level 61, right associativity).

(** [try: body except ...: handler]: [handler e] is [None] when no
    [except] clause names [e]. *)
Definition try_except {A} (body : M A) (handler : exn -> option (M A)) : M A :=
  fun w =>
    match body w with
    | (Raise e, w') =>
        match handler e with
        | Some h => h w'
        | None => (Raise e, w')
        end
    | r => r
    end.

Definition print (line : string) : M unit :=
  fun w => (Ret tt, mkWorld (exchanges w) (stdout w ++ [line]) (dirs w)
                            (files w) (sleeps w) (refused w)).

(** What [time.sleep(delay)] raises, if anything: [ValueError] for a
    negative delay, [OverflowError] for one that does not fit the clock,
    which counts nanoseconds in 64 bits. *)
Definition sleep_refusal (delay : QArith_base.Q) : option exn :=
  if (QArith_base.Qnum delay <? 0)%Z
  then Some (ValueError "sleep length must be non-negative")
  else if ((2 ^ 63 - 1) * Z.pos (QArith_base.Qden delay)
           <? QArith_base.Qnum delay * 10 ^ 9)%Z
       then Some (OverflowError "timestamp too large to convert to C _PyTime_t")
       else None.

Definition sleep (delay : QArith_base.Q) : M unit :=
  fun w =>
    match sleep_refusal delay with
    | Some e => (Raise e, w)
    | None => (Ret tt, mkWorld (exchanges w) (stdout w) (dirs w) (files w)
                               (sleeps w ++ [delay]) (refused w))
    end.

(** ** The file system, as far as the source uses it *)

Module Os.

Definition is_dir (p : string) (w : World) : bool :=
  existsb (String.eqb p) (dirs w).

Definition is_file (p : string) (w : World) : bool :=
  existsb (fun f => String.eqb p (fst f)) (files w).

Definition path_exists (p : string) : M bool :=
  fun w => (Ret (existsb (String.eqb p) (dirs w)
                 || existsb (fun f => String.eqb p (fst f)) (files w)), w).

(** The proper prefixes of [s] that end just before a ['/']. *)
Fixpoint parents (pre s : string) : list string :=
  match s with
  | EmptyString => []
  | String c r =>
      (if Ascii.eqb c "/" && PyStr.truthy pre then [pre] else [])
      ++ parents (pre ++ String c "") r
  end.

(** The length of [s] once encoded in UTF-8. *)
Definition utf8_length (s : string) : nat :=
  fold_right (fun c n => (if (nat_of_ascii c <? 128)%nat then 1 else 2) + n)
             0 (list_ascii_of_string s).

(** What the text of a path alone makes the system raise: [ValueError] for
    a NUL character, [OSError] for the empty path, for a component of more
    than 255 bytes and for a path of more than 4095 (the limits of
    Linux). *)
Definition path_refusal (p : string) : option exn :=
  if PyStr.contains (String "000" "") p
  then Some (ValueError "embedded null byte")
  else if negb (PyStr.truthy p)
  then Some (OSError "No such file or directory")
  else if existsb (fun c => (255 <? utf8_length c)%nat) (PyStr.split "/" p)
          || (4095 <? utf8_length p)%nat
  then Some (OSError "File name too long")
  else None.

(** What [os.makedirs(p)] raises, if anything: [p] exists already, or one
    of the directories on the way to it is a file, or the system turns
    the operation down. *)
Definition makedirs_refusal (p : string) (w : World) : option exn :=
  match path_refusal p with
  | Some e => Some e
  | None =>
      if is_dir p w || is_file p w then Some (OSError "File exists")
      else if existsb (fun q => is_file q w) (parents "" p)
      then Some (OSError "Not a directory")
      else option_map OSError (refused w (MakeDirs p))
  end.

(** [os.makedirs(p)]: [p] and the directories on the way to it. *)
Definition makedirs (p : string) : M unit :=
  fun w =>
    match makedirs_refusal p w with
    | Some e => (Raise e, w)
    | None => (Ret tt, mkWorld (exchanges w) (stdout w)
                               (p :: parents "" p ++ dirs w) (files w)
                               (sleeps w) (refused w))
    end.

(** [os.path.join(a, b)] on a POSIX system. *)
Definition path_join (a b : string) : string :=
  if prefix "/" b then b
  else if negb (PyStr.truthy a) then b
  else if Ascii.eqb (last (list_ascii_of_string a) " "%char) "/" then a ++ b
  else a ++ "/" ++ b.

(** The directory a path lies in, [None] for a path with no directory
    part but the root. *)
Definition dirname (p : string) : option string :=
  last (map Some (parents "" p)) None.

(** What [open(p, 'w')] raises, if anything: [p] is a directory, or one of
    the directories on the way to it is a file, or the directory it lies
    in does not exist, or the system turns the operation down. *)
Definition open_refusal (p : string) (w : World) : option exn :=
  match path_refusal p with
  | Some e => Some e
  | None =>
      if is_dir p w then Some (OSError "Is a directory")
      else if existsb (fun q => is_file q w) (parents "" p)
      then Some (OSError "Not a directory")
      else if match dirname p with Some q => negb (is_dir q w) | None => false end
      then Some (OSError "No such file or directory")
      else option_map OSError (refused w (OpenForWriting p))
  end.

(** [with open(p, 'w', encoding='utf-8') as f: f.write(text)]: an existing
    file is replaced. *)
Definition write_file (p text : string) : M unit :=
  fun w =>
    match open_refusal p w with
    | Some e => (Raise e, w)
    | None => (Ret tt, mkWorld (exchanges w) (stdout w) (dirs w)
                               ((p, text)
                                :: filter (fun f => negb (String.eqb p (fst f)))
                                          (files w))
                               (sleeps w) (refused w))
    end.

(** [os.makedirs(p, exist_ok=True)]. *)
Definition makedirs_exist_ok (p : string) : M unit :=
  fun w => if is_dir p w then (Ret tt, w) else makedirs p w.

(** The lines of a text file opened for reading, line ends removed; a
    line ends at LF, CR or CR LF. *)
Fixpoint lines_from (cur s : string) : list string :=
  match s with
  | EmptyString => if PyStr.truthy cur then [cur] else []
  | String c r =>
      if Ascii.eqb c "010" then cur :: lines_from "" r
      else if Ascii.eqb c "013"
           then cur :: match r with
                       | String d r' =>
                           if Ascii.eqb d "010" then lines_from "" r'
                           else lines_from "" r
                       | EmptyString => []
                       end
           else lines_from (cur ++ String c "") r
  end.

(** [open(p, 'r')] and iteration over the lines. *)
Definition read_lines (p : string) : M (list string) :=
  fun w =>
    match find (fun f => String.eqb p (fst f)) (files w) with
    | Some f => (Ret (lines_from "" (snd f)), w)
    | None => (Raise (OSError "No such file or directory"), w)
    end.

End Os.

(** ** Values of the extractor *)

(** The [dict] a transcript fetch returns: ["video_id"], ["transcript"]
    (a text or [None]) and, only after a handled failure, ["error"]. *)
Record TranscriptResult : Type := mkResult {
  video_id : string;
  transcript : option string;
  error : option string
}.

(** The [dict] shapes [extract_from_url] returns. *)
Inductive UrlResult : Type :=
| ErrorResult (error : string)
| VideoResult (r : TranscriptResult)
| PlaylistResult (playlist_id : string) (transcripts : list TranscriptResult)
| ChannelResult (channel_id : IdValue) (transcripts : list TranscriptResult).

(** The object state [__init__] sets up: [youtube] tells whether the
    attribute of that name exists.  Building the client is not counted
    among the remote calls. *)
Record Extractor : Type := mkExtractor {
  api_key : option string;
  youtube : bool
}.

Definition init (key : option string) : Extractor :=
  mkExtractor key (PyStr.truthy_opt key).

(** The parsed command line of [main]. *)
Record Args : Type := mkArgs {
  arg_input : string;
  arg_api_key : option string;
  arg_language : option string;
  arg_output_dir : option string;
  arg_video_list : option string
}.

(** [str] of an ['id'] value, as an f-string shows it. *)
Definition id_str (v : IdValue) : string :=
  match v with
  | IdStr s => s
  | IdObj k c => "{'kind': '" ++ k ++ "', 'channelId': '" ++ c ++ "'}"
  end.

(** How an iteration of [while True] ends. *)
Inductive Ctl : Type := Break | Continue.

Section Methods.

(** The remote collaborators, and a bound on the iterations of the
    [while True] loop that a run may take. *)
Variable remote : Remote.
Variable fuel : nat.

Definition call (c : Call) : M Reply :=
  fun w =>
    let r := remote (exchanges w) c in
    (Ret r, mkWorld (exchanges w ++ [(c, r)]) (stdout w) (dirs w) (files w)
                    (sleeps w) (refused w)).

(** A response of a shape the source does not expect makes its subscripts
    fail. *)
Definition malformed {A} : M A := raise (OtherError "unexpected response").

Definition api_get_transcript (vid : string) : M (list string) :=
  r <- call (GetTranscript vid) ;;
  match r with Raises e => raise e | Segments t => ret t | _ => malformed end.

Definition api_list_transcripts (vid : string) : M unit :=
  r <- call (ListTranscripts vid) ;;
  match r with Raises e => raise e | TranscriptList => ret tt | _ => malformed end.

Definition api_find_transcript (vid : string) (langs : list string) : M unit :=
  r <- call (FindTranscript vid langs) ;;
  match r with Raises e => raise e | Transcript => ret tt | _ => malformed end.

Definition api_fetch (vid lang : string) : M (list string) :=
  r <- call (FetchTranscript vid lang) ;;
  match r with Raises e => raise e | Segments t => ret t | _ => malformed end.

(** Reading [self.youtube]. *)
Definition youtube_client (self : Extractor) : M unit :=
  if youtube self then ret tt
  else raise (AttributeError "object has no attribute 'youtube'").

Definition execute_playlist_items (pid : string) (n : Z) (tok : option string)
  : M (list string * option string) :=
  r <- call (PlaylistItemsList pid n tok) ;;
  match r with
  | Raises e => raise e
  | PlaylistPage ids next => ret (ids, next)
  | _ => malformed
  end.

Definition execute_channel_uploads (c : Call) : M (list string) :=
  r <- call c ;;
  match r with Raises e => raise e | ChannelUploads u => ret u | _ => malformed end.

Definition execute_item_ids (c : Call) : M (list IdValue) :=
  r <- call c ;;
  match r with Raises e => raise e | ItemIds l => ret l | _ => malformed end.

(** *** [get_video_transcript] *)

(** The calls made inside the [try] block: the segment texts of the track
    in the requested language, or of the default track. *)
Definition fetch_segments (vid : string) (language : option string)
  : M (list string) :=
  match language with
  | Some lang =>
      if PyStr.truthy lang
      then api_list_transcripts vid ;;
           api_find_transcript vid [lang] ;;
           api_fetch vid lang
      else api_get_transcript vid
  | None => api_get_transcript vid
  end.

Definition get_video_transcript (self : Extractor) (vid : string)
    (language : option string) : M TranscriptResult :=
  try_except
    (transcript_data <- fetch_segments vid language ;;
     let full_transcript := PyStr.join " " transcript_data in
     let full_transcript := PyStr.strip (Re.sub_ws full_transcript) in
     ret (mkResult vid (Some full_transcript) None))
    (fun e =>
       match e with
       | TranscriptsDisabled _ | NoTranscriptFound _ =>
           Some (print ("Error extracting transcript for video " ++ vid
                        ++ ": " ++ exn_str e) ;;
                 ret (mkResult vid None (Some (exn_str e))))
       | _ => None
       end).

(** *** [get_playlist_video_ids] *)
Fixpoint playlist_loop (self : Extractor) (n : nat) (playlist_id : string)
    (max_results : Z) (video_ids : list string)
    (next_page_token : option string) : M (list string) :=
  match n with
  | O => out_of_fuel
  | S n' =>
      youtube_client self ;;
      step <-
        try_except
          (response <-
             execute_playlist_items playlist_id
               (Z.min (max_results - Z.of_nat (length video_ids)) 50)
               next_page_token ;;
           let video_ids' := (video_ids ++ fst response)%list in
           let next' := snd response in
           if negb (PyStr.truthy_opt next')
              || (max_results <=? Z.of_nat (length video_ids'))%Z
           then ret (Break, video_ids', next')
           else ret (Continue, video_ids', next'))
          (fun e =>
             match e with
             | HttpError _ =>
                 Some (print ("Error retrieving playlist videos: "
                              ++ exn_str e) ;;
                       ret (Break, video_ids, next_page_token))
             | _ => None
             end) ;;
      match step with
      | (Break, ids, _) => ret ids
      | (Continue, ids, tok) =>
          playlist_loop self n' playlist_id max_results ids tok
      end
  end.

Definition get_playlist_video_ids (self : Extractor) (playlist_id : string)
    (max_results : Z) : M (list string) :=
  if negb (PyStr.truthy_opt (api_key self))
  then raise (ValueError "YouTube API key is required for playlist operations")
  else playlist_loop self fuel playlist_id max_results [] None.

(** *** [get_channel_video_ids] *)
Definition get_channel_video_ids (self : Extractor) (channel_id : IdValue)
    (max_results : Z) : M (list string) :=
  if negb (PyStr.truthy_opt (api_key self))
  then raise (ValueError "YouTube API key is required for channel operations")
  else
    youtube_client self ;;
    items <- execute_channel_uploads (ChannelsListById channel_id) ;;
    match items with
    | [] =>
        print ("Channel " ++ id_str channel_id ++ " not found") ;;
        ret []
    | uploads_playlist_id :: _ =>
        get_playlist_video_ids self uploads_playlist_id max_results
    end.

(** *** [extract_transcripts_batch] *)
Fixpoint batch_loop (self : Extractor) (total : nat) (language output_dir : option string)
    (delay : QArith_base.Q) (i : nat) (video_ids : list string)
    (results : list TranscriptResult) : M (list TranscriptResult) :=
  match video_ids with
  | [] => ret results
  | vid :: rest =>
      print ("Processing video " ++ PyStr.str_of_nat (i + 1) ++ "/"
             ++ PyStr.str_of_nat total ++ ": " ++ vid) ;;
      transcript_data <- get_video_transcript self vid language ;;
      let results := (results ++ [transcript_data])%list in
      (match output_dir, transcript transcript_data with
       | Some d, Some text =>
           if PyStr.truthy d && PyStr.truthy text
           then let output_file := Os.path_join d (vid ++ ".txt") in
                Os.write_file output_file text ;;
                print ("Saved transcript to " ++ output_file)
           else ret tt
       | _, _ => ret tt
       end) ;;
      (if (Z.of_nat i <? Z.of_nat total - 1)%Z then sleep delay else ret tt) ;;
      batch_loop self total language output_dir delay (S i) rest results
  end.

Definition extract_transcripts_batch (self : Extractor) (video_ids : list string)
    (language output_dir : option string) (delay : QArith_base.Q)
  : M (list TranscriptResult) :=
  (match output_dir with
   | Some d =>
       if PyStr.truthy d
       then there <- Os.path_exists d ;;
            if negb there then Os.makedirs d else ret tt
       else ret tt
   | None => ret tt
   end) ;;
  batch_loop self (length video_ids) language output_dir delay 0 video_ids [].

(** The default values of the optional parameters. *)
Definition default_max_results : Z := 50.
Definition default_delay : QArith_base.Q := QArith_base.Qmake 1 2.

(** *** [extract_from_url]

    [dispatch] is the body of the method with the batch call it makes,
    [self.extract_transcripts_batch(video_ids, language)], taken as the
    parameter [batch]; [extract_from_url] ties it to the method. *)
Definition dispatch
    (batch : list string -> option string -> M (list TranscriptResult))
    (self : Extractor) (url : string) (language : option string)
  : M UrlResult :=
  if PyStr.contains "youtube.com/watch" url || PyStr.contains "youtu.be/" url
  then
    match extract_video_id_from_url url with
    | Some vid =>
        if PyStr.truthy vid
        then r <- get_video_transcript self vid language ;; ret (VideoResult r)
        else ret (ErrorResult "Invalid YouTube video URL")
    | None => ret (ErrorResult "Invalid YouTube video URL")
    end
  else if PyStr.contains "youtube.com/playlist" url
  then
    match Re.search_list_param url with
    | None => ret (ErrorResult "Invalid YouTube playlist URL")
    | Some playlist_id =>
        video_ids <- get_playlist_video_ids self playlist_id default_max_results ;;
        ts <- batch video_ids language ;;
        ret (PlaylistResult playlist_id ts)
    end
  else if existsb (fun x => PyStr.contains x url)
            ["youtube.com/channel/"; "youtube.com/c/"; "youtube.com/user/"]
  then
    if negb (PyStr.truthy_opt (api_key self))
    then ret (ErrorResult "YouTube API key required for channel operations")
    else
      found <-
        (if PyStr.contains "youtube.com/channel/" url
         then
           match nth_error (PyStr.split "youtube.com/channel/" url) 1 with
           | Some part => ret (inr (IdStr (hd "" (PyStr.split "/" part))))
           | None => raise (IndexError "list index out of range")
           end
         else
           let username := last (PyStr.split "/" url) "" in
           try_except
             (items <-
                (if PyStr.contains "youtube.com/c/" url
                 then youtube_client self ;;
                      execute_item_ids (SearchChannel username)
                 else youtube_client self ;;
                      execute_item_ids (ChannelsListForUsername username)) ;;
              match items with
              | [] => ret (inl (ErrorResult ("Channel not found: " ++ username)))
              | item :: _ => ret (inr item)
              end)
             (fun e =>
                match e with
                | HttpError _ =>
                    Some (ret (inl (ErrorResult ("YouTube API error: "
                                                 ++ exn_str e))))
                | _ => None
                end)) ;;
      match found with
      | inl r => ret r
      | inr channel_id =>
          video_ids <- get_channel_video_ids self channel_id default_max_results ;;
          ts <- batch video_ids language ;;
          ret (ChannelResult channel_id ts)
      end
  else ret (ErrorResult "URL not recognized as YouTube video, playlist, or channel").

Definition extract_from_url (self : Extractor) (url : string)
    (language : option string) : M UrlResult :=
  dispatch
    (fun video_ids lang =>
       extract_transcripts_batch self video_ids lang None default_delay)
    self url language.

(** *** [main], on the parsed command line *)
Definition count_transcribed (rs : list TranscriptResult) : nat :=
  List.length (filter (fun r => PyStr.truthy_opt (transcript r)) rs).

Definition main (args : Args) : M unit :=
  let extractor := init (arg_api_key args) in
  if PyStr.truthy_opt (arg_video_list args)
  then
    raw <- Os.read_lines (match arg_video_list args with Some p => p | None => "" end) ;;
    let video_urls := filter PyStr.truthy (map PyStr.strip raw) in
    video_ids <-
      fold_left
        (fun acc url =>
           ids <- acc ;;
           match extract_video_id_from_url url with
           | Some vid =>
               if PyStr.truthy vid then ret (ids ++ [vid])%list
               else print ("Could not extract video ID from: " ++ url) ;; ret ids
           | None => print ("Could not extract video ID from: " ++ url) ;; ret ids
           end)
        video_urls (ret []) ;;
    results <- extract_transcripts_batch extractor video_ids (arg_language args)
                 (arg_output_dir args) default_delay ;;
    print (String "010" "Processed " ++ PyStr.str_of_nat (List.length results)
           ++ " videos, " ++ PyStr.str_of_nat (count_transcribed results)
           ++ " transcripts extracted")
  else
    result <- extract_from_url extractor (arg_input args) (arg_language args) ;;
    match result with
    | ErrorResult e => print ("Error: " ++ e)
    | VideoResult (mkResult vid _ (Some e)) => print ("Error: " ++ e)
    | VideoResult (mkResult vid t None) =>
        match t with
        | Some text =>
            if PyStr.truthy text
            then
              print (String "010" "Transcript for video " ++ vid ++ ":") ;;
              print (if (1000 <? String.length text)%nat
                     then substring 0 1000 text ++ "..." else text) ;;
              match arg_output_dir args with
              | Some d =>
                  if PyStr.truthy d
                  then
                    Os.makedirs_exist_ok d ;;
                    let output_file := Os.path_join d (vid ++ ".txt") in
                    Os.write_file output_file text ;;
                    print (String "010" "Saved complete transcript to "
                           ++ output_file)
                  else ret tt
              | None => ret tt
              end
            else print (String "010" "No transcript available for video " ++ vid)
        | None => print (String "010" "No transcript available for video " ++ vid)
        end
    | PlaylistResult pid ts =>
        print (String "010" "Processed " ++ PyStr.str_of_nat (List.length ts)
               ++ " videos from playlist " ++ pid) ;;
        print ("Successfully extracted "
               ++ PyStr.str_of_nat (count_transcribed ts) ++ " transcripts") ;;
        if PyStr.truthy_opt (arg_output_dir args)
        then print ("Transcripts saved to "
                    ++ match arg_output_dir args with Some d => d | None => "" end)
        else ret tt
    | ChannelResult cid ts =>
        print (String "010" "Processed " ++ PyStr.str_of_nat (List.length ts)
               ++ " videos from channel " ++ id_str cid) ;;
        print ("Successfully extracted "
               ++ PyStr.str_of_nat (count_transcribed ts) ++ " transcripts") ;;
        if PyStr.truthy_opt (arg_output_dir args)
        then print ("Transcripts saved to "
                    ++ match arg_output_dir args with Some d => d | None => "" end)
        else ret tt
    end.

End Methods.

(** ** Vocabulary of the properties *)

(** A well-formed video identifier: eleven characters of the identifier
    alphabet. *)
Definition is_video_id (s : string) : bool :=
  (String.length s =? 11)%nat
  && forallb Re.is_id_char (list_ascii_of_string s).

(** [s] does not contain the character [c]. *)
Definition lacks (c : ascii) (s : string) : bool :=
  forallb (fun d => negb (Ascii.eqb c d)) (list_ascii_of_string s).

(** The words of a text, that is its maximal runs of characters that are
    not whitespace, in order.  This follows the wording of the
    specification, not the code. *)
Definition at_word_end (s : string) : bool :=
  match s with EmptyString => true | String d _ => PyStr.isspace d end.

Fixpoint words (s : string) : list string :=
  match s with
  | EmptyString => []
  | String c r =>
      if PyStr.isspace c then words r
      else if at_word_end r then String c "" :: words r
      else match words r with
           | w :: ws => String c w :: ws
           | [] => [String c ""]
           end
  end.

Definition no_space (s : string) : bool :=
  forallb (fun c => negb (PyStr.isspace c)) (list_ascii_of_string s).

(** The two failures that [get_video_transcript] handles. *)
Definition expected_failure (e : exn) : bool :=
  match e with
  | TranscriptsDisabled _ | NoTranscriptFound _ => true
  | _ => false
  end.

(** What the source computes from the segment texts of a fetch. *)
Definition normalize (segs : list string) : string :=
  PyStr.strip (Re.sub_ws (PyStr.join " " segs)).








(** Reading a run of the enumerator off the exchanges it made. *)
Definition page_ids (x : Exchange) : list string :=
  match snd x with PlaylistPage ids _ => ids | _ => [] end.

Definition page_cursor (x : Exchange) : option string :=
  match snd x with PlaylistPage _ next => next | _ => None end.

(** All the identifiers received in the exchanges [xs]. *)
Definition collected (xs : list Exchange) : list string :=
  flat_map page_ids xs.

(** The continuation cursor in hand when the [i]-th request is made. *)
Definition cursor_before (xs : list Exchange) (i : nat) : option string :=
  match i with
  | O => None
  | S j => match nth_error xs j with Some x => page_cursor x | None => None end
  end.

(** The listing endpoint never sends more items than the page size asked
    for. *)
Definition honours_page_size (remote : Remote) : Prop :=
  forall hist pid n tok ids next,
    remote hist (PlaylistItemsList pid n tok) = PlaylistPage ids next ->
    (Z.of_nat (List.length ids) <= Z.max n 0)%Z.

Definition answered_by (remote : Remote) (x : Exchange) : Prop :=
  exists hist, snd x = remote hist (fst x).

(** The exception a reply to a page request turns into, if any. *)
Definition reply_error (rep : Reply) : option exn :=
  match rep with
  | Raises e => Some e
  | PlaylistPage _ _ => None
  | _ => Some (OtherError "unexpected response")
  end.

Definition is_http_error (e : exn) : bool :=
  match e with HttpError _ => true | _ => false end.

Section Pagination.

Variables (pid : string) (max : Z).

Definition page_request (ids : list string) (tok : option string) : Call :=
  PlaylistItemsList pid (Z.min (max - Z.of_nat (List.length ids)) 50) tok.

(** [Pagination ids tok xs r]: starting with [ids] collected and the cursor
    [tok], the loop makes the exchanges [xs] and ends with [r]. *)
Inductive Pagination
  : list string -> option string -> list Exchange -> Outcome (list string)
    -> Prop :=
| pg_fuel ids tok : Pagination ids tok [] OutOfFuel
| pg_http_error ids tok m :
    Pagination ids tok [(page_request ids tok, Raises (HttpError m))] (Ret ids)
| pg_failure ids tok rep e :
    reply_error rep = Some e -> is_http_error e = false ->
    Pagination ids tok [(page_request ids tok, rep)] (Raise e)
| pg_last ids tok p next :
    PyStr.truthy_opt next = false
    \/ (max <= Z.of_nat (List.length (ids ++ p)))%Z ->
    Pagination ids tok [(page_request ids tok, PlaylistPage p next)]
               (Ret (ids ++ p)%list)
| pg_next ids tok p next xs r :
    PyStr.truthy_opt next = true ->
    (Z.of_nat (List.length (ids ++ p)) < max)%Z ->
    Pagination (ids ++ p)%list next xs r ->
    Pagination ids tok ((page_request ids tok, PlaylistPage p next) :: xs) r.

End Pagination.

(** A reference listing service over the collection [coll]: a page holds
    the next items of the collection, as many as [maxResults] asks for or
    fewer when the service caps the page at offset [off] at
    [limit off + 1] items; the cursor it hands out encodes the offset of
    the following page (offset [k] as [k + 1] letters). *)
Fixpoint ticks (n : nat) : string :=
  match n with O => "" | S k => String "t" (ticks k) end.

Definition token_of (offset : nat) : string := ticks (S offset).

Definition offset_of (tok : option string) : nat :=
  match tok with None => 0 | Some t => pred (String.length t) end.

Definition paged_server (limit : nat -> nat) (coll : list string) : Remote :=
  fun _ c =>
    match c with
    | PlaylistItemsList _ n tok =>
        let off := offset_of tok in
        let page :=
          firstn (Nat.min (Z.to_nat n) (S (limit off))) (skipn off coll) in
        let off' := off + List.length page in
        PlaylistPage page
          (if (off' <? List.length coll)%nat then Some (token_of off')
           else None)
    | _ => Raises (OtherError "not served")
    end.

(** ** Scenarios used as concrete instances *)

Module Scenario.

(** Nothing exists yet, and the system turns nothing down. *)
Definition empty_world : World := mkWorld [] [] [] [] [] (fun _ => None).

Definition LF : string := String "010" "".

(** Segment texts that join to ["a\n\n  b   c"]. *)
Definition spaced_segments : list string :=
  ["a" ++ LF ++ LF ++ " "; "b  "; "c"].

(** The identifiers of a batch of three. *)
Definition three_videos : list string :=
  ["dQw4w9WgXcQ"; "9bZkp7q19f0"; "kJQP7kiw5Fk"].

(** A transcript service: one video with a transcript, one with
    transcripts disabled, one whose segments carry stray whitespace; any
    other default-track request fails with a connection error, and
    fetching a track by language is refused for all but the first video. *)
Definition transcripts : Remote :=
  fun _ c =>
    match c with
    | GetTranscript "dQw4w9WgXcQ" =>
        Segments ["Never "; "gonna "; "give you up"]
    | GetTranscript "9bZkp7q19f0" =>
        Raises (TranscriptsDisabled "Subtitles are disabled for this video")
    | GetTranscript "kJQP7kiw5Fk" => Segments spaced_segments
    | GetTranscript _ => Raises (OtherError "Connection reset by peer")
    | ListTranscripts _ => TranscriptList
    | FindTranscript _ _ => Transcript
    | FetchTranscript "dQw4w9WgXcQ" _ =>
        Segments ["Never "; "gonna "; "give you up"]
    | FetchTranscript _ _ => Raises (OtherError "Too Many Requests")
    | _ => Raises (OtherError "not served")
    end.

(** A transcript service that has a transcript for every video. *)
Definition generous : Remote :=
  fun _ c =>
    match c with
    | GetTranscript _ | FetchTranscript _ _ => Segments ["hello"]
    | ListTranscripts _ => TranscriptList
    | FindTranscript _ _ => Transcript
    | _ => Raises (OtherError "not served")
    end.

(** A world in which [taken] is a file, and one whose system lets the
    process create nothing. *)
Definition file_in_the_way : World :=
  mkWorld [] [] [] [("taken", "")] [] (fun _ => None).

Definition read_only : World :=
  mkWorld [] [] [] [] [] (fun _ => Some "Permission denied").

(** A listing service whose second page request fails. *)
Definition flaky_playlist : Remote :=
  fun _ c =>
    match c with
    | PlaylistItemsList _ _ None =>
        PlaylistPage ["dQw4w9WgXcQ"; "9bZkp7q19f0"] (Some "CAIQAA")
    | PlaylistItemsList _ _ (Some _) => Raises (HttpError "quotaExceeded")
    | _ => Raises (OtherError "not served")
    end.

(** A collection of [n] items. *)
Definition collection (n : nat) : list string :=
  map (fun i => "video" ++ PyStr.str_of_nat i) (seq 0 n).

(** Page caps: none below the fifty the extractor asks for at most, and
    pages of seven items. *)
Definition full_pages : nat -> nat := fun _ => 49.
Definition pages_of_seven : nat -> nat := fun _ => 6.

(** A playlist of 120 items behind a service that sends full pages. *)
Definition playlist_of_120 : Remote := paged_server full_pages (collection 120).

End Scenario.

(** * Properties *)

(** ** Working with the monad *)

Lemma bind_returns {A B} (m : M A) (k : A -> M B) w a w1 :
  m w = (Ret a, w1) -> bind m k w = k a w1.
Proof. unfold bind. intros ->. reflexivity. Qed.

Lemma bind_raises {A B} (m : M A) (k : A -> M B) w e w1 :
  m w = (Raise e, w1) -> bind m k w = (Raise e, w1).
Proof. unfold bind. intros ->. reflexivity. Qed.

Lemma bind_out_of_fuel {A B} (m : M A) (k : A -> M B) w w1 :
  m w = (OutOfFuel, w1) -> bind m k w = (OutOfFuel, w1).
Proof. unfold bind. intros ->. reflexivity. Qed.


(** Resolve the first [bind] of [H] with a computation known to return. *)
Ltac bind_step H E := rewrite (bind_returns _ _ _ _ _ E) in H; cbv beta in H.

(** The first [bind] of [H] runs a computation that always returns [tt];
    [tac] proves so. *)
Ltac bind_unit H tac :=
  match type of H with
  | bind ?m _ ?w = _ =>
      let w2 := fresh "w" in
      let S := fresh "S" in
      assert (exists w2, m w = (Ret tt, w2)) as [w2 S] by tac;
      bind_step H S
  end.

(** ** Strings *)

Module StrFacts.

Lemma append_nil_r (s : string) : s ++ "" = s.
Proof. induction s; simpl; congruence. Qed.

Lemma append_assoc (a b c : string) : (a ++ b) ++ c = a ++ b ++ c.
Proof. induction a; simpl; congruence. Qed.

Lemma prefix_char c d r :
  prefix (String c "") (String d r) = Ascii.eqb c d.
Proof.
  simpl. destruct (ascii_dec c d) as [->|N].
  - rewrite Ascii.eqb_refl. now destruct r.
  - symmetry. now apply Ascii.eqb_neq.
Qed.

Lemma lacks_cons c d s :
  lacks c (String d s) = negb (Ascii.eqb c d) && lacks c s.
Proof. reflexivity. Qed.

Lemma lacks_app c a b : lacks c (a ++ b) = lacks c a && lacks c b.
Proof.
  induction a as [|x a IH]; [reflexivity|].
  cbn [append]. rewrite !lacks_cons, IH. apply andb_assoc.
Qed.

(** A text without the separator is a single part. *)
Lemma split_go_lacks c cur s :
  lacks c s = true -> PyStr.split_go (String c "") 0 cur s = [cur ++ s].
Proof.
  revert cur. induction s as [|d r IH]; intros cur H.
  - simpl. now rewrite append_nil_r.
  - cbn [PyStr.split_go]. rewrite prefix_char. rewrite lacks_cons in H.
    apply andb_true_iff in H. destruct H as [H1 H2].
    apply negb_true_iff in H1. rewrite H1. rewrite IH by exact H2.
    now rewrite append_assoc.
Qed.

Lemma split_go_nonempty sep k cur s : PyStr.split_go sep k cur s <> [].
Proof.
  revert k cur. induction s as [|d r IH]; intros k cur; cbn [PyStr.split_go];
    [discriminate|].
  destruct k; auto. destruct (prefix sep (String d r)); [discriminate|auto].
Qed.

Lemma last_cons_nonempty {A} (a : A) l d :
  l <> [] -> last (a :: l) d = last l d.
Proof. intros H. destruct l; [now contradiction H|reflexivity]. Qed.

(** [s.split(c)[-1]] is what follows the last [c]. *)
Lemma split_go_last c cur pre seg :
  lacks c seg = true ->
  last (PyStr.split_go (String c "") 0 cur (pre ++ String c seg)) "" = seg.
Proof.
  intros H. revert cur. induction pre as [|d r IH]; intros cur.
  - cbn [append PyStr.split_go]. rewrite prefix_char, Ascii.eqb_refl.
    cbn [String.length Nat.sub]. now rewrite split_go_lacks.
  - cbn [append PyStr.split_go]. rewrite prefix_char.
    destruct (Ascii.eqb c d).
    + cbn [String.length Nat.sub].
      rewrite last_cons_nonempty by apply split_go_nonempty. apply IH.
    + apply IH.
Qed.

(** [s.split(c)[0]] is what precedes the first [c]. *)
Lemma split_go_head c cur a rest :
  lacks c a = true ->
  rest = "" \/ (exists r, rest = String c r) ->
  hd "" (PyStr.split_go (String c "") 0 cur (a ++ rest)) = cur ++ a.
Proof.
  revert cur. induction a as [|d r IH]; intros cur H R.
  - cbn [append]. rewrite append_nil_r. destruct R as [->|[r' ->]]; [reflexivity|].
    cbn [PyStr.split_go]. now rewrite prefix_char, Ascii.eqb_refl.
  - cbn [append PyStr.split_go]. rewrite prefix_char. rewrite lacks_cons in H.
    apply andb_true_iff in H. destruct H as [H1 H2].
    apply negb_true_iff in H1. rewrite H1, IH; auto.
    now rewrite append_assoc.
Qed.

(** A text that lacks a character of [needle] does not contain [needle]. *)
Lemma prefix_lacks c needle s :
  lacks c needle = false -> lacks c s = true -> prefix needle s = false.
Proof.
  revert s. induction needle as [|a needle IH]; intros s Hn Hs;
    [discriminate|].
  destruct s as [|b s]; [reflexivity|]. simpl.
  rewrite lacks_cons in Hn, Hs. apply andb_true_iff in Hs.
  destruct Hs as [Hb Hs]. apply negb_true_iff in Hb.
  destruct (ascii_dec a b) as [->|N]; [|reflexivity].
  rewrite Hb in Hn. simpl in Hn. now apply IH.
Qed.

Lemma contains_lacks c needle s :
  lacks c needle = false -> lacks c s = true ->
  PyStr.contains needle s = false.
Proof.
  intros Hn. induction s as [|b s IH]; intros Hs.
  - simpl. destruct needle; [discriminate|reflexivity].
  - cbn [PyStr.contains]. rewrite (prefix_lacks c) by assumption.
    rewrite lacks_cons in Hs. apply andb_true_iff in Hs. now apply IH.
Qed.

End StrFacts.

(** ** Identifier Resolver *)

Module Resolver.

Import StrFacts.

Lemma take_id_app n id rest :
  String.length id = n ->
  forallb Re.is_id_char (list_ascii_of_string id) = true ->
  Re.take_id n (id ++ rest) = Some (id, rest).
Proof.
  revert n. induction id as [|c id IH]; intros n <- H; simpl in *; auto.
  apply andb_true_iff in H. destruct H as [-> H].
  now rewrite (IH _ eq_refl H).
Qed.

Lemma video_id_take id rest :
  is_video_id id = true -> Re.take_id 11 (id ++ rest) = Some (id, rest).
Proof.
  unfold is_video_id. intros H. apply andb_true_iff in H. destruct H as [L F].
  apply Nat.eqb_eq in L. now apply take_id_app.
Qed.

Lemma video_id_lacks c id :
  Re.is_id_char c = false -> is_video_id id = true -> lacks c id = true.
Proof.
  unfold is_video_id, lacks. intros Hc H. apply andb_true_iff in H.
  destruct H as [_ F]. rewrite forallb_forall in *. intros d Hd.
  apply negb_true_iff. destruct (Ascii.eqb c d) eqn:E; auto.
  apply Ascii.eqb_eq in E. subst d. rewrite (F _ Hd) in Hc. discriminate.
Qed.

Lemma search_skip c r :
  Re.video_id_at (String c r) = None ->
  Re.search_video_id (String c r) = Re.search_video_id r.
Proof. intros H. cbn [Re.search_video_id]. now rewrite H. Qed.

Lemma search_at_v r m rest :
  Re.take_id 11 r = Some (m, rest) ->
  Re.search_video_id (String "v" (String "=" r)) = Some m.
Proof.
  intros H. cbn [Re.search_video_id]. unfold Re.video_id_at.
  cbn [Ascii.eqb Bool.eqb andb]. now rewrite H.
Qed.

(** The resolver is a total function: whatever the text, it yields an
    identifier or [None].  On these inputs it behaves as its comments say. *)
Example resolve_short_link :
  extract_video_id_from_url "https://youtu.be/dQw4w9WgXcQ" = Some "dQw4w9WgXcQ".
Proof. reflexivity. Qed.

Example resolve_bare_id :
  extract_video_id_from_url "dQw4w9WgXcQ" = Some "dQw4w9WgXcQ".
Proof. reflexivity. Qed.

Example resolve_no_identifier :
  extract_video_id_from_url "not a video reference" = None.
Proof. reflexivity. Qed.

Example resolve_short_candidate :
  extract_video_id_from_url "https://www.youtube.com/watch?v=abc" = None.
Proof. reflexivity. Qed.

(** The pattern of the second branch does not look past the eleventh
    character: a longer candidate is cut, not rejected. *)
Example resolve_long_candidate :
  extract_video_id_from_url "https://www.youtube.com/watch?v=dQw4w9WgXcQQQQ"
  = Some "dQw4w9WgXcQ".
Proof. reflexivity. Qed.

(** A short link whose last path segment is a well-formed identifier,
    possibly followed by a query without ['/'], resolves to it. *)
Lemma short_link_resolves pre id q :
  is_video_id id = true ->
  PyStr.contains "youtu.be" (pre ++ "/" ++ id ++ q) = true ->
  q = "" \/ (exists r, q = String "?" r) ->
  lacks "/" q = true ->
  extract_video_id_from_url (pre ++ "/" ++ id ++ q) = Some id.
Proof.
  intros Hid Hm Hq Hs. unfold extract_video_id_from_url. rewrite Hm. f_equal.
  unfold PyStr.split. cbn [append]. rewrite split_go_last.
  - rewrite split_go_head; auto. now apply video_id_lacks.
  - rewrite lacks_app, Hs, (video_id_lacks "/" id); auto.
Qed.

(** A watch link that does not contain the text [youtu.be] resolves to
    its [v] parameter. *)
Lemma watch_url_resolves id rest :
  is_video_id id = true ->
  PyStr.contains "youtu.be" ("https://www.youtube.com/watch?v=" ++ id ++ rest)
  = false ->
  extract_video_id_from_url ("https://www.youtube.com/watch?v=" ++ id ++ rest)
  = Some id.
Proof.
  intros Hid Hm. unfold extract_video_id_from_url. rewrite Hm.
  cbn [append].
  repeat (rewrite search_skip by reflexivity).
  now rewrite (search_at_v _ _ _ (video_id_take id rest Hid)).
Qed.

(** Whatever follows the last ['/'] of a text that contains [youtu.be] is
    returned as it is; such an input never resolves to [None]. *)
Lemma marker_never_not_found url :
  PyStr.contains "youtu.be" url = true ->
  extract_video_id_from_url url <> None.
Proof. unfold extract_video_id_from_url. intros ->. discriminate. Qed.

(** Claim C3, at its failing input.  The claim asks for [None] on every
    malformed input, in particular on a short link whose last path segment
    is not a well-formed identifier.  On ["https://youtu.be/abc"] the
    resolver returns the three-character segment ["abc"], which is not an
    identifier, instead of [None]. *)
Theorem short_link_segment_unvalidated :
  extract_video_id_from_url "https://youtu.be/abc" = Some "abc"
  /\ is_video_id "abc" = false.
Proof. split; reflexivity. Qed.

(** Claim C6, at its failing input.  The claim asks that every valid watch
    link resolves to the identifier it embeds.  The watch link
    ["https://www.youtube.com/watch?v=dQw4w9WgXcQ&feature=youtu.be"]
    contains the text [youtu.be], is taken for a short link, and resolves
    to ["watch"] instead of ["dQw4w9WgXcQ"]. *)
Theorem watch_url_with_marker_misresolved :
  extract_video_id_from_url
    "https://www.youtube.com/watch?v=dQw4w9WgXcQ&feature=youtu.be"
  = Some "watch"
  /\ is_video_id "dQw4w9WgXcQ" = true.
Proof. split; reflexivity. Qed.

End Resolver.

(** ** Transcript Fetcher *)

Module Fetcher.

(** Collapsing whitespace and trimming, against the words of the text. *)

Lemma lstrip_sub_ws_true s :
  PyStr.lstrip (Re.sub_ws_from true s) = Re.sub_ws_from true s.
Proof.
  induction s as [|c r IH]; simpl; auto.
  destruct (PyStr.isspace c) eqn:E; auto. simpl. now rewrite E.
Qed.

Lemma lstrip_sub_ws s :
  PyStr.lstrip (Re.sub_ws_from false s) = Re.sub_ws_from true s.
Proof.
  destruct s as [|c r]; simpl; auto.
  destruct (PyStr.isspace c) eqn:E; simpl.
  - apply lstrip_sub_ws_true.
  - now rewrite E.
Qed.

Lemma sub_ws_word_start r :
  at_word_end r = false -> Re.sub_ws_from false r = Re.sub_ws_from true r.
Proof. destruct r as [|d r]; simpl; [discriminate|]. now intros ->. Qed.

Lemma words_start r :
  at_word_end r = false -> exists w ws, words r = w :: ws /\ w <> "".
Proof.
  destruct r as [|d r]; simpl; [discriminate|]. intros ->.
  destruct (at_word_end r); [eexists _, _; split; [reflexivity|discriminate]|].
  destruct (words r); eexists _, _; split; try reflexivity; discriminate.
Qed.

Lemma words_nonempty s : Forall (fun w => w <> "") (words s).
Proof.
  induction s as [|c r IH]; simpl; auto.
  destruct (PyStr.isspace c); auto.
  destruct (at_word_end r); [constructor; [discriminate|auto]|].
  destruct (words r); constructor; try discriminate; auto.
  now inversion IH.
Qed.

Lemma words_no_space s : Forall (fun w => no_space w = true) (words s).
Proof.
  induction s as [|c r IH]; simpl; auto.
  destruct (PyStr.isspace c) eqn:E; auto.
  destruct (at_word_end r).
  - constructor; auto. unfold no_space. simpl. now rewrite E.
  - destruct (words r) as [|w ws].
    + constructor; auto. unfold no_space. simpl. now rewrite E.
    + inversion IH; subst. constructor; auto.
      unfold no_space in *. simpl. now rewrite E.
Qed.

Lemma join_nonempty w ws : w <> "" -> PyStr.join " " (w :: ws) <> "".
Proof.
  intros H. unfold PyStr.join. simpl. destruct ws; auto.
  destruct w; [contradiction|discriminate].
Qed.

Lemma join_cons2 x w ws :
  PyStr.join " " (x :: w :: ws) = x ++ " " ++ PyStr.join " " (w :: ws).
Proof. reflexivity. Qed.

Lemma join_cons_char c w ws :
  PyStr.join " " (String c w :: ws) = String c (PyStr.join " " (w :: ws)).
Proof. unfold PyStr.join. simpl. destruct ws; reflexivity. Qed.

Lemma rstrip_sub_ws s :
  PyStr.rstrip (Re.sub_ws_from true s) = PyStr.join " " (words s).
Proof.
  induction s as [|c r IH]; [reflexivity|].
  cbn [Re.sub_ws_from words]. destruct (PyStr.isspace c) eqn:E; [exact IH|].
  cbn [PyStr.rstrip]. destruct (at_word_end r) eqn:W.
  - destruct r as [|d r']; [simpl; now rewrite E|]. simpl in W.
    cbn [Re.sub_ws_from words] in *. rewrite W in *.
    cbn [PyStr.rstrip]. rewrite IH.
    destruct (words r') as [|w ws] eqn:Ws; [simpl; now rewrite E|].
    pose proof (words_nonempty r') as N. rewrite Ws in N. inversion N; subst.
    destruct (PyStr.join " " (w :: ws)) eqn:J.
    + exfalso. eapply join_nonempty; eauto.
    + rewrite join_cons2, J. reflexivity.
  - rewrite sub_ws_word_start by assumption. rewrite IH.
    destruct (words_start r W) as (w & ws & -> & N).
    rewrite join_cons_char.
    destruct (PyStr.join " " (w :: ws)) eqn:J; [|reflexivity].
    exfalso. eapply join_nonempty; eauto.
Qed.

(** The words keep the characters that are not whitespace, all of them
    and in order, and joining words by spaces adds nothing else. *)
Lemma words_chars s :
  flat_map list_ascii_of_string (words s)
  = filter (fun c => negb (PyStr.isspace c)) (list_ascii_of_string s).
Proof.
  induction s as [|c r IH]; [reflexivity|].
  cbn [words list_ascii_of_string filter].
  destruct (PyStr.isspace c); cbn [negb]; [exact IH|].
  destruct (at_word_end r).
  - cbn [flat_map list_ascii_of_string app]. now rewrite IH.
  - destruct (words r) as [|w ws].
    + cbn [flat_map list_ascii_of_string app]. now rewrite <- IH.
    + cbn [flat_map list_ascii_of_string app] in *. now rewrite IH.
Qed.

Lemma chars_app a b :
  list_ascii_of_string (a ++ b)
  = (list_ascii_of_string a ++ list_ascii_of_string b)%list.
Proof. induction a as [|c a IH]; simpl; congruence. Qed.

Lemma no_space_filter w :
  no_space w = true ->
  filter (fun c => negb (PyStr.isspace c)) (list_ascii_of_string w)
  = list_ascii_of_string w.
Proof.
  unfold no_space. induction w as [|c w IH]; simpl; auto.
  intros H. apply andb_true_iff in H. destruct H as [-> H].
  now rewrite IH.
Qed.

Lemma join_chars ws :
  Forall (fun w => no_space w = true) ws ->
  filter (fun c => negb (PyStr.isspace c))
         (list_ascii_of_string (PyStr.join " " ws))
  = flat_map list_ascii_of_string ws.
Proof.
  induction 1 as [|w ws Hw HF IH]; [reflexivity|].
  destruct ws as [|w' ws].
  - cbn [PyStr.join String.concat flat_map]. rewrite app_nil_r.
    now apply no_space_filter.
  - rewrite join_cons2, !chars_app, !filter_app, IH.
    rewrite no_space_filter by assumption. reflexivity.
Qed.

(** [re.sub(r'\s+', ' ', s).strip()] is the words of [s] joined by single
    spaces. *)
Lemma normalization_spec s :
  PyStr.strip (Re.sub_ws s) = PyStr.join " " (words s).
Proof.
  unfold PyStr.strip, Re.sub_ws. rewrite lstrip_sub_ws. apply rstrip_sub_ws.
Qed.

Section WithRemote.

Variable remote : Remote.

(** What [get_video_transcript] makes of each outcome of the calls in its
    [try] block. *)
Lemma get_video_transcript_cases self vid lang w :
  match fetch_segments remote vid lang w with
  | (Ret segs, w1) =>
      get_video_transcript remote self vid lang w
      = (Ret (mkResult vid (Some (normalize segs)) None), w1)
  | (Raise e, w1) =>
      if expected_failure e
      then exists w2, get_video_transcript remote self vid lang w
           = (Ret (mkResult vid None (Some (exn_str e))), w2)
      else get_video_transcript remote self vid lang w = (Raise e, w1)
  | (OutOfFuel, w1) =>
      get_video_transcript remote self vid lang w = (OutOfFuel, w1)
  end.
Proof.
  unfold get_video_transcript, try_except, bind.
  destruct (fetch_segments remote vid lang w) as [[segs|e|] w1]; try reflexivity.
  destruct e; simpl; unfold bind, print, ret; simpl; eauto.
Qed.


(** Claim C7.  After a successful fetch of the segment texts [segs], the
    transcript of the result is the words of the texts joined by single
    spaces, the texts being taken in their order with a space between
    them: every run of whitespace, line feeds included, has become one
    space and nothing is left at either end.  The words are not empty
    and hold no whitespace, and the characters of the transcript other
    than its spaces are those of the texts that are not whitespace. *)
Theorem transcript_is_normalized self vid lang w segs w1 :
  fetch_segments remote vid lang w = (Ret segs, w1) ->
  exists t,
    get_video_transcript remote self vid lang w
    = (Ret (mkResult vid (Some t) None), w1)
    /\ t = PyStr.join " " (words (PyStr.join " " segs))
    /\ Forall (fun wd => wd <> "" /\ no_space wd = true)
              (words (PyStr.join " " segs))
    /\ filter (fun c => negb (PyStr.isspace c)) (list_ascii_of_string t)
       = filter (fun c => negb (PyStr.isspace c))
                (list_ascii_of_string (PyStr.join " " segs)).
Proof.
  intros F. pose proof (get_video_transcript_cases self vid lang w) as C.
  rewrite F in C. eexists. split; [exact C|]. split; [|split].
  - apply normalization_spec.
  - apply Forall_forall. intros wd Hin. split.
    + pose proof (words_nonempty (PyStr.join " " segs)) as N.
      rewrite Forall_forall in N. auto.
    + pose proof (words_no_space (PyStr.join " " segs)) as N.
      rewrite Forall_forall in N. auto.
  - unfold normalize. rewrite normalization_spec.
    rewrite join_chars by apply words_no_space. apply words_chars.
Qed.

End WithRemote.

(** The segments ["a\n\n "], ["b  "], ["c"] join to ["a\n\n  b   c"] and
    give the transcript ["a b c"]. *)
Lemma transcript_is_normalized_witness :
  PyStr.join " " Scenario.spaced_segments
  = "a" ++ Scenario.LF ++ Scenario.LF ++ "  b   c"
  /\ fetch_segments Scenario.transcripts "kJQP7kiw5Fk" None
       Scenario.empty_world
     = (Ret Scenario.spaced_segments,
        snd (fetch_segments Scenario.transcripts "kJQP7kiw5Fk" None
               Scenario.empty_world))
  /\ fst (get_video_transcript Scenario.transcripts (init None) "kJQP7kiw5Fk"
            None Scenario.empty_world)
     = Ret (mkResult "kJQP7kiw5Fk" (Some "a b c") None).
Proof.
  split; [reflexivity|]. split; [reflexivity|].
  destruct (transcript_is_normalized Scenario.transcripts (init None)
              "kJQP7kiw5Fk" None Scenario.empty_world Scenario.spaced_segments
              (snd (fetch_segments Scenario.transcripts "kJQP7kiw5Fk" None
                      Scenario.empty_world)) eq_refl)
    as (t & E & T & _).
  rewrite E, T. reflexivity.
Defined.

End Fetcher.

(** ** Batch Orchestrator *)

Module Batch.

Import Fetcher.

(** ** What the file system and the clock raise *)










(** ** The fetches read the exchanges only *)




Section WithRemote.

Variable remote : Remote.






(** ** One item *)







(** ** The loop *)







End WithRemote.





(** What ends a batch although every fetch succeeds: an identifier with a
    ['/'], whose file would lie in a directory that does not exist; an
    output directory that is a file; a system that lets nothing be
    created; a negative delay. *)
Example batch_stops_at_missing_directory :
  fst (extract_transcripts_batch Scenario.generous (init None)
         ["dQw4w9WgXcQ"; "a/b"; "kJQP7kiw5Fk"] None (Some "out")
         default_delay Scenario.empty_world)
  = Raise (OSError "No such file or directory").
Proof. reflexivity. Qed.

Example batch_stops_at_file_in_the_way :
  fst (extract_transcripts_batch Scenario.generous (init None)
         Scenario.three_videos None (Some "taken") default_delay
         Scenario.file_in_the_way)
  = Raise (OSError "Not a directory").
Proof. reflexivity. Qed.

Example batch_stops_at_refusal :
  fst (extract_transcripts_batch Scenario.generous (init None)
         Scenario.three_videos None (Some "out") default_delay
         Scenario.read_only)
  = Raise (OSError "Permission denied").
Proof. reflexivity. Qed.

Example batch_stops_at_negative_delay :
  fst (extract_transcripts_batch Scenario.generous (init None)
         Scenario.three_videos None None (QArith_base.Qmake (-1) 2)
         Scenario.empty_world)
  = Raise (ValueError "sleep length must be non-negative").
Proof. reflexivity. Qed.

Example batch_of_three_results :
  fst (extract_transcripts_batch Scenario.transcripts (init None)
         Scenario.three_videos None (Some "out") default_delay
         Scenario.empty_world)
  = Ret [mkResult "dQw4w9WgXcQ" (Some "Never gonna give you up") None;
         mkResult "9bZkp7q19f0" None
           (Some "Subtitles are disabled for this video");
         mkResult "kJQP7kiw5Fk" (Some "a b c") None]
  /\ map fst
       (files
          (snd (extract_transcripts_batch Scenario.transcripts (init None)
                  Scenario.three_videos None (Some "out") default_delay
                  Scenario.empty_world)))
     = ["out/kJQP7kiw5Fk.txt"; "out/dQw4w9WgXcQ.txt"].
Proof. split; reflexivity. Qed.


End Batch.

(** ** Collection Enumerator *)

Module Enumerator.

Section WithRemote.

Variable remote : Remote.

(** One iteration of the [while True] loop. *)
Lemma playlist_loop_step self n pid max ids tok w :
  youtube self = true ->
  playlist_loop remote self (S n) pid max ids tok w =
    let c := page_request pid max ids tok in
    let w1 := snd (call remote c w) in
    match remote (exchanges w) c with
    | PlaylistPage p next =>
        if negb (PyStr.truthy_opt next)
           || (max <=? Z.of_nat (List.length (ids ++ p)))%Z
        then (Ret (ids ++ p)%list, w1)
        else playlist_loop remote self n pid max (ids ++ p)%list next w1
    | Raises e =>
        if is_http_error e
        then (Ret ids,
              snd (print ("Error retrieving playlist videos: " ++ exn_str e) w1))
        else (Raise e, w1)
    | _ => (Raise (OtherError "unexpected response"), w1)
    end.
Proof.
  intros Hy. cbn [playlist_loop]. unfold youtube_client. rewrite Hy.
  unfold bind at 1, ret at 1. unfold bind at 1.
  unfold try_except, bind at 1, execute_playlist_items, bind at 1, call.
  unfold page_request.
  destruct (remote (exchanges w) _) as [e| | | |p next| |]; try reflexivity.
  - destruct e; reflexivity.
  - cbn [fst snd malformed raise ret].
    destruct (negb (PyStr.truthy_opt next) || _)%bool; reflexivity.
Qed.

Lemma playlist_loop_no_client self n pid max ids tok w :
  youtube self = false ->
  playlist_loop remote self (S n) pid max ids tok w
  = (Raise (AttributeError "object has no attribute 'youtube'"), w).
Proof.
  intros Hy. cbn [playlist_loop]. unfold youtube_client. rewrite Hy. reflexivity.
Qed.

(** A run of the loop adds to the exchanges a pagination answered by the
    remote service. *)
Lemma playlist_loop_trace self pid max n :
  youtube self = true ->
  forall ids tok w r w',
    playlist_loop remote self n pid max ids tok w = (r, w') ->
    exists xs, exchanges w' = (exchanges w ++ xs)%list
               /\ Forall (answered_by remote) xs
               /\ Pagination pid max ids tok xs r.
Proof.
  intros Hy. induction n as [|n IH]; intros ids tok w r w' H.
  - inversion H; subst. exists []. rewrite app_nil_r.
    repeat split; auto. constructor.
  - rewrite playlist_loop_step in H by assumption. cbv zeta in H.
    set (c := page_request pid max ids tok) in *.
    set (w1 := snd (call remote c w)) in *.
    assert (E1 : exchanges w1
                 = (exchanges w ++ [(c, remote (exchanges w) c)])%list)
      by reflexivity.
    assert (A : answered_by remote (c, remote (exchanges w) c))
      by (exists (exchanges w); reflexivity).
    clearbody w1.
    destruct (remote (exchanges w) c) as [e| | | |p next| |] eqn:R;
      try (injection H as <- <-; eexists [_]; repeat split;
           [exact E1 | constructor; [exact A|constructor]
           |apply pg_failure; reflexivity]).
    + destruct (is_http_error e) eqn:He; injection H as <- <-.
      * destruct e; try discriminate. eexists [_]. repeat split.
        -- exact E1.
        -- constructor; [exact A|constructor].
        -- apply pg_http_error.
      * eexists [_]. repeat split.
        -- exact E1.
        -- constructor; [exact A|constructor].
        -- apply pg_failure; auto.
    + destruct (negb (PyStr.truthy_opt next)
                || (max <=? Z.of_nat (List.length (ids ++ p)))%Z)%bool eqn:Stop.
      * injection H as <- <-. eexists [_]. repeat split.
        -- exact E1.
        -- constructor; [exact A|constructor].
        -- apply pg_last. apply orb_true_iff in Stop. destruct Stop as [S|S].
           ++ left. now apply negb_true_iff in S.
           ++ right. now apply Z.leb_le in S.
      * apply IH in H. destruct H as (xs & Hx & HA & HP).
        apply orb_false_iff in Stop. destruct Stop as [S1 S2].
        apply negb_false_iff in S1. apply Z.leb_gt in S2.
        exists ((c, PlaylistPage p next) :: xs). repeat split.
        -- rewrite Hx, E1. rewrite <- app_assoc. reflexivity.
        -- constructor; [exact A|assumption].
        -- apply pg_next; assumption.
Qed.

(** The same for the method, once a credential is there. *)
Lemma get_playlist_trace fuel key pid max w r w' :
  PyStr.truthy_opt key = true ->
  get_playlist_video_ids remote fuel (init key) pid max w = (r, w') ->
  exists xs, exchanges w' = (exchanges w ++ xs)%list
             /\ Forall (answered_by remote) xs
             /\ Pagination pid max [] None xs r.
Proof.
  intros Hk H. unfold get_playlist_video_ids in H. cbn [init api_key] in H.
  rewrite Hk in H. cbn [negb] in H.
  eapply playlist_loop_trace; [|exact H]. exact Hk.
Qed.

(** *** Facts read off a pagination *)

Lemma collected_cons x xs :
  collected (x :: xs) = (page_ids x ++ collected xs)%list.
Proof. reflexivity. Qed.

(** Every request asks for [min(max - collected so far, 50)] items and
    carries the cursor of the previous response. *)
Lemma pagination_requests pid max ids tok xs r :
  Pagination pid max ids tok xs r ->
  forall i x, nth_error xs i = Some x ->
    fst x = PlaylistItemsList pid
              (Z.min (max - Z.of_nat (List.length ids
                                      + List.length (collected (firstn i xs))))
                     50)
              (match i with O => tok | S _ => cursor_before xs i end).
Proof.
  induction 1 as [ids tok|ids tok m|ids tok rep e He Hh|ids tok p next Hs
                 |ids tok p next xs r Ht Hl HP IH]; intros i x Hi.
  - destruct i; discriminate.
  - destruct i as [|[|i]]; try discriminate. injection Hi as <-.
    simpl. rewrite Nat.add_0_r. reflexivity.
  - destruct i as [|[|i]]; try discriminate. injection Hi as <-.
    simpl. rewrite Nat.add_0_r. reflexivity.
  - destruct i as [|[|i]]; try discriminate. injection Hi as <-.
    simpl. rewrite Nat.add_0_r. reflexivity.
  - destruct i as [|i].
    + injection Hi as <-. simpl. rewrite Nat.add_0_r. reflexivity.
    + simpl in Hi. rewrite (IH _ _ Hi). cbn [firstn]. rewrite collected_cons.
      cbn [page_ids snd]. rewrite !length_app, Nat.add_assoc.
      destruct i; reflexivity.
Qed.

Lemma pagination_empty pid max ids tok r :
  Pagination pid max ids tok [] r -> r = OutOfFuel.
Proof. inversion 1; reflexivity. Qed.

(** A page ends the enumeration, which then returns all it has collected,
    exactly when it carries no cursor or brings the count to [max]. *)
Lemma pagination_stop pid max ids tok xs r :
  Pagination pid max ids tok xs r ->
  forall i c p next, nth_error xs i = Some (c, PlaylistPage p next) ->
    (PyStr.truthy_opt next = false
     \/ (max <= Z.of_nat (List.length ids
                          + List.length (collected (firstn (S i) xs))))%Z)
    <-> (S i = List.length xs /\ r = Ret (ids ++ collected xs)%list).
Proof.
  induction 1 as [ids tok|ids tok m|ids tok rep e He Hh|ids tok p next Hs
                 |ids tok p next xs r Ht Hl HP IH]; intros i c q nx Hi.
  - destruct i; discriminate.
  - destruct i as [|[|i]]; discriminate.
  - destruct i as [|[|i]]; try discriminate. injection Hi as _ ->. discriminate.
  - destruct i as [|[|i]]; try discriminate. injection Hi as _ <- <-.
    cbn [firstn collected flat_map page_ids snd]. rewrite !app_nil_r.
    rewrite <- length_app. split; auto.
  - destruct i as [|i].
    + injection Hi as _ <- <-.
      cbn [firstn collected flat_map page_ids snd]. rewrite !app_nil_r.
      rewrite <- length_app. split.
      * intros [S|S]; [congruence|lia].
      * intros [L R]. injection L as L. symmetry in L.
        apply length_zero_iff_nil in L. subst xs.
        apply pagination_empty in HP. congruence.
    + simpl in Hi. specialize (IH _ _ _ _ Hi).
      cbn [firstn] in *. rewrite !collected_cons. cbn [page_ids snd].
      rewrite !length_app, Nat.add_assoc, <- length_app, app_assoc.
      cbn [List.length]. rewrite IH. split; intros [L R]; split; congruence.
Qed.


(** With a service that honours the page size the count never passes
    [max]. *)
Lemma pagination_bound pid max ids tok xs res :
  honours_page_size remote ->
  Forall (answered_by remote) xs ->
  Pagination pid max ids tok xs (Ret res) ->
  (Z.of_nat (List.length ids) <= max)%Z ->
  (Z.of_nat (List.length res) <= max)%Z.
Proof.
  intros Hh HA P. remember (Ret res) as r eqn:E. revert res E HA.
  induction P as [ids tok|ids tok m|ids tok rep e He Hx|ids tok p next Hs
                 |ids tok p next xs r Ht Hl HP IH]; intros res E HA Hb;
    try discriminate.
  - injection E as <-. exact Hb.
  - injection E as <-. inversion HA as [|x l [hist Hr] _]; subst.
    cbn [fst snd] in Hr. symmetry in Hr. apply Hh in Hr.
    rewrite length_app. lia.
  - apply (IH _ E); [now inversion HA|lia].
Qed.

Lemma playlist_ids_bound fuel self pid max w ids w' :
  honours_page_size remote -> (0 <= max)%Z ->
  get_playlist_video_ids remote fuel self pid max w = (Ret ids, w') ->
  (Z.of_nat (List.length ids) <= max)%Z.
Proof.
  intros Hh Hmax H. unfold get_playlist_video_ids in H.
  destruct (negb (PyStr.truthy_opt (api_key self))); [discriminate|].
  destruct (youtube self) eqn:Hy.
  - apply playlist_loop_trace in H; auto. destruct H as (xs & _ & HA & HP).
    eapply pagination_bound; eauto.
  - destruct fuel; [discriminate|].
    rewrite playlist_loop_no_client in H by assumption. discriminate.
Qed.

Lemma channel_ids_bound fuel self cid max w ids w' :
  honours_page_size remote -> (0 <= max)%Z ->
  get_channel_video_ids remote fuel self cid max w = (Ret ids, w') ->
  (Z.of_nat (List.length ids) <= max)%Z.
Proof.
  intros Hh Hmax H. unfold get_channel_video_ids in H.
  destruct (negb (PyStr.truthy_opt (api_key self))); [discriminate|].
  unfold bind at 1 in H. destruct (youtube_client self w) as [[[]|e|] w1];
    try discriminate.
  unfold bind at 1 in H.
  destruct (execute_channel_uploads remote _ w1) as [[items|e|] w2];
    try discriminate.
  destruct items as [|u rest].
  - unfold bind, print, ret in H. injection H as <- _. simpl. lia.
  - eapply playlist_ids_bound; eauto.
Qed.

End WithRemote.

(** *** The reference listing service *)

Lemma ticks_length n : String.length (ticks n) = n.
Proof. induction n; simpl; auto. Qed.

Lemma offset_token k : offset_of (Some (token_of k)) = k.
Proof. unfold offset_of, token_of. now rewrite ticks_length. Qed.

Lemma firstn_plus {A} (l : list A) k m :
  (firstn k l ++ firstn m (skipn k l))%list = firstn (k + m) l.
Proof.
  revert l. induction k as [|k IH]; intros [|a l]; simpl; auto.
  - now rewrite firstn_nil.
  - now rewrite IH.
Qed.

Lemma paged_server_honours limit coll :
  honours_page_size (paged_server limit coll).
Proof.
  intros hist pid n tok ids next H. simpl in H. injection H as <- _.
  rewrite length_firstn. lia.
Qed.

(** Against the reference service the loop returns the first [max] items
    of the collection; as every page brings at least one item, [max]
    iterations are enough. *)
Lemma paged_loop limit coll self pid max n :
  youtube self = true ->
  forall k tok w,
    offset_of tok = k ->
    (k <= List.length coll)%nat ->
    (Z.of_nat k < max)%Z ->
    (max - Z.of_nat k <= Z.of_nat n)%Z ->
    exists w',
      playlist_loop (paged_server limit coll) self n pid max (firstn k coll)
        tok w
      = (Ret (firstn (Z.to_nat max) coll), w').
Proof.
  intros Hy. induction n as [|n IH]; intros k tok w Ho Hk Hm Hf; [lia|].
  rewrite playlist_loop_step; [|assumption]. cbv zeta.
  unfold page_request. cbn [paged_server]. rewrite Ho.
  assert (Hl : List.length (firstn k coll) = k) by (rewrite length_firstn; lia).
  rewrite !Hl.
  set (m := Nat.min (Z.to_nat (Z.min (max - Z.of_nat k) 50)) (S (limit k))).
  assert (Hm1 : (1 <= m)%nat) by lia.
  assert (Hm2 : (Z.of_nat m <= max - Z.of_nat k)%Z) by lia.
  assert (Hp : List.length (firstn m (skipn k coll))
               = Nat.min m (List.length coll - k))
    by (now rewrite length_firstn, length_skipn).
  rewrite !Hp, firstn_plus, length_firstn.
  destruct (k + Nat.min m (List.length coll - k) <? List.length coll)%nat
    eqn:More.
  - apply Nat.ltb_lt in More.
    cbn [PyStr.truthy_opt token_of ticks PyStr.truthy negb orb].
    destruct (max <=? Z.of_nat (Nat.min (k + m) (List.length coll)))%Z eqn:Full.
    + apply Z.leb_le in Full. eexists. f_equal. f_equal. f_equal. lia.
    + apply Z.leb_gt in Full.
      replace (k + Nat.min m (List.length coll - k))%nat with (k + m)%nat by lia.
      apply IH; try lia. apply offset_token.
  - apply Nat.ltb_ge in More. cbn [PyStr.truthy_opt negb orb].
    eexists. f_equal. f_equal. rewrite !firstn_all2 by lia. reflexivity.
Qed.

(** *** The claims on enumeration *)

(** Claim C5.  For an extractor with a credential and [max_results > 0]:
    - with a listing service that honours the page size,
      [get_playlist_video_ids] returns at most [max_results] identifiers;
    - against a collection served page by page, whatever the sizes of
      the pages the service sends, it returns the first [max_results]
      items, hence exactly [max_results] of them when the collection
      holds at least that many ([max_results] iterations are enough, as
      every page brings at least one item);
    - every request of a run asks for
      [min(max_results - already collected, 50)] items and carries the
      cursor of the previous response; and a page ends the run, which then
      returns all it has collected, exactly when it carries no cursor
      ([None], or the empty text, which Python takes for false as well)
      or brings the count to [max_results]. *)
Theorem playlist_enumeration_respects_max remote fuel key pid max w :
  PyStr.truthy_opt key = true ->
  (0 < max)%Z ->
  (honours_page_size remote ->
   forall ids w',
     get_playlist_video_ids remote fuel (init key) pid max w = (Ret ids, w') ->
     (Z.of_nat (List.length ids) <= max)%Z)
  /\ (forall limit coll,
        (max <= Z.of_nat fuel)%Z ->
        exists w',
          get_playlist_video_ids (paged_server limit coll) fuel (init key)
            pid max w
          = (Ret (firstn (Z.to_nat max) coll), w')
          /\ ((max <= Z.of_nat (List.length coll))%Z ->
              Z.of_nat (List.length (firstn (Z.to_nat max) coll)) = max))
  /\ (forall r w',
        get_playlist_video_ids remote fuel (init key) pid max w = (r, w') ->
        exists xs,
          exchanges w' = (exchanges w ++ xs)%list
          /\ (forall i x, nth_error xs i = Some x ->
                fst x = PlaylistItemsList pid
                          (Z.min (max - Z.of_nat
                                          (List.length
                                             (collected (firstn i xs))))
                                 50)
                          (cursor_before xs i))
          /\ (forall i c p next,
                nth_error xs i = Some (c, PlaylistPage p next) ->
                (PyStr.truthy_opt next = false
                 \/ (max <= Z.of_nat
                              (List.length (collected (firstn (S i) xs))))%Z)
                <-> (S i = List.length xs /\ r = Ret (collected xs)))).
Proof.
  intros Hk Hmax. split; [|split].
  - intros Hh ids w' H. eapply playlist_ids_bound; eauto. lia.
  - intros limit coll Hfuel. unfold get_playlist_video_ids.
    cbn [init api_key]. rewrite Hk. cbn [negb].
    destruct (paged_loop limit coll (init key) pid max fuel Hk 0 None w
                eq_refl)
      as [w' E]; try lia.
    exists w'. split; [exact E|]. intros Hlen. rewrite length_firstn. lia.
  - intros r w' H.
    destruct (get_playlist_trace remote fuel key pid max w r w' Hk H)
      as (xs & Hx & _ & HP).
    exists xs. split; [exact Hx|]. split.
    + intros i x Hi. rewrite (pagination_requests _ _ _ _ _ _ HP i x Hi).
      destruct i; reflexivity.
    + intros i c p next Hi. exact (pagination_stop _ _ _ _ _ _ HP i c p next Hi).
Qed.

(** A collection of 120 items and [max_results = 50]: exactly the first
    50 are returned. *)
Lemma playlist_enumeration_respects_max_witness :
  PyStr.truthy_opt (Some "key") = true
  /\ (0 < 50)%Z
  /\ exists w',
       get_playlist_video_ids
         (paged_server Scenario.full_pages (Scenario.collection 120)) 50
         (init (Some "key")) "PL0" 50 Scenario.empty_world
       = (Ret (firstn 50 (Scenario.collection 120)), w')
       /\ List.length (firstn 50 (Scenario.collection 120)) = 50%nat.
Proof.
  split; [reflexivity|]. split; [reflexivity|].
  destruct (playlist_enumeration_respects_max
              (paged_server Scenario.full_pages (Scenario.collection 120)) 50
              (Some "key") "PL0" 50 Scenario.empty_world eq_refl eq_refl)
    as (_ & H & _).
  destruct (H Scenario.full_pages (Scenario.collection 120))
    as (w' & E & _); [discriminate|].
  exists w'. split; [exact E|reflexivity].
Defined.

(** With full pages one request of 50 is made; with pages of seven the
    requests ask for 50, 43, 36, ... items and the result is the same. *)
Example enumeration_of_120_full_pages :
  map fst
    (exchanges
       (snd (get_playlist_video_ids
               (paged_server Scenario.full_pages (Scenario.collection 120)) 50
               (init (Some "key")) "PL0" 50 Scenario.empty_world)))
  = [PlaylistItemsList "PL0" 50 None].
Proof. reflexivity. Qed.

Example enumeration_of_120_pages_of_seven :
  fst (get_playlist_video_ids
         (paged_server Scenario.pages_of_seven (Scenario.collection 120)) 50
         (init (Some "key")) "PL0" 50 Scenario.empty_world)
  = Ret (firstn 50 (Scenario.collection 120))
  /\ map (fun x => match fst x with
                   | PlaylistItemsList _ n _ => n
                   | _ => 0%Z
                   end)
         (exchanges
            (snd (get_playlist_video_ids
                    (paged_server Scenario.pages_of_seven
                       (Scenario.collection 120)) 50
                    (init (Some "key")) "PL0" 50 Scenario.empty_world)))
     = [50; 43; 36; 29; 22; 15; 8; 1]%Z.
Proof. split; reflexivity. Qed.

(** Claim C8.  On an extractor without a credential ([None] or the empty
    text) both enumerations raise [ValueError] and leave the world as it
    was: no request has been sent. *)
Theorem enumeration_requires_credential remote fuel self pid cid max w :
  PyStr.truthy_opt (api_key self) = false ->
  get_playlist_video_ids remote fuel self pid max w
  = (Raise (ValueError "YouTube API key is required for playlist operations"),
     w)
  /\ get_channel_video_ids remote fuel self cid max w
     = (Raise (ValueError "YouTube API key is required for channel operations"),
        w).
Proof.
  intros H. unfold get_playlist_video_ids, get_channel_video_ids.
  rewrite H. split; reflexivity.
Qed.

Lemma enumeration_requires_credential_witness :
  PyStr.truthy_opt (api_key (init None)) = false
  /\ get_playlist_video_ids Scenario.flaky_playlist 3 (init None) "PL0" 50
       Scenario.empty_world
     = (Raise (ValueError "YouTube API key is required for playlist operations"),
        Scenario.empty_world)
  /\ get_channel_video_ids Scenario.flaky_playlist 3 (init None)
       (IdStr "UC0") 50 Scenario.empty_world
     = (Raise (ValueError "YouTube API key is required for channel operations"),
        Scenario.empty_world).
Proof.
  split; [reflexivity|].
  exact (enumeration_requires_credential Scenario.flaky_playlist 3 (init None)
           "PL0" (IdStr "UC0") 50 Scenario.empty_world eq_refl).
Defined.



End Enumerator.

(** ** The dispatcher *)

Module Dispatcher.

Import StrFacts Resolver Enumerator.

(** No text made of identifier characters is taken for a video, playlist
    or channel reference: each marker the dispatcher looks for contains a
    ['/']. *)
Lemma bare_ids_never_recognized remote fuel self id lang w :
  is_video_id id = true ->
  extract_from_url remote fuel self id lang w
  = (Ret (ErrorResult
            "URL not recognized as YouTube video, playlist, or channel"), w).
Proof.
  intros Hid. assert (L : lacks "/" id = true)
    by (now apply video_id_lacks).
  unfold extract_from_url, dispatch. cbn [existsb].
  rewrite !(contains_lacks "/") by (reflexivity || exact L).
  reflexivity.
Qed.

(** Claim C4, at its failing input.  The claim asks that a bare identifier
    given as the positional input is treated as a video reference.
    [extract_from_url] answers ["dQw4w9WgXcQ"] with the error for an
    unrecognized input, without fetching anything, and [main] prints that
    error. *)
Theorem bare_id_not_recognized remote fuel key lang out w :
  is_video_id "dQw4w9WgXcQ" = true
  /\ extract_from_url remote fuel (init key) "dQw4w9WgXcQ" lang w
     = (Ret (ErrorResult
               "URL not recognized as YouTube video, playlist, or channel"),
        w)
  /\ main remote fuel (mkArgs "dQw4w9WgXcQ" key lang out None) w
     = print "Error: URL not recognized as YouTube video, playlist, or channel"
         w.
Proof. repeat split. Qed.

Section WithRemote.

Variables (remote : Remote) (fuel : nat).

(** Claim C10.  With a listing service that honours the page size, a run
    of the dispatcher either ends without calling the batch method, or
    hands it a list of at most 50 identifiers: whatever the batch method
    does, the outcome of the dispatcher is the outcome of the batch method
    on that list, wrapped in the result for the playlist or channel.
    [extract_from_url] is [dispatch] with [extract_transcripts_batch] for
    [batch]; it has no parameter for the count. *)
Theorem dispatch_hands_over_at_most_50 self url lang w :
  honours_page_size remote ->
  (exists r w', forall batch,
      dispatch remote fuel batch self url lang w = (r, w'))
  \/ (exists ids wrap w1,
        (List.length ids <= 50)%nat
        /\ forall batch,
             dispatch remote fuel batch self url lang w
             = (ts <- batch ids lang ;; ret (wrap ts)) w1).
Proof.
  intros Hh. unfold dispatch.
  destruct (PyStr.contains "youtube.com/watch" url
            || PyStr.contains "youtu.be/" url)%bool.
  { left. eexists _, _. intros batch. apply surjective_pairing. }
  destruct (PyStr.contains "youtube.com/playlist" url).
  { destruct (Re.search_list_param url) as [pid|].
    - destruct (get_playlist_video_ids remote fuel self pid default_max_results w)
        as [[ids|e|] w1] eqn:E.
      + right. exists ids, (PlaylistResult pid), w1. split.
        * apply playlist_ids_bound in E; auto;
            unfold default_max_results in *; lia.
        * intros batch. now rewrite (bind_returns _ _ _ _ _ E).
      + left. exists (Raise e), w1. intros batch.
        now rewrite (bind_raises _ _ _ _ _ E).
      + left. exists OutOfFuel, w1. intros batch.
        now rewrite (bind_out_of_fuel _ _ _ _ E).
    - left. eexists _, _. intros batch. reflexivity. }
  destruct (existsb _ _).
  2:{ left. eexists _, _. intros batch. reflexivity. }
  destruct (negb (PyStr.truthy_opt (api_key self))).
  { left. eexists _, _. intros batch. reflexivity. }
  match goal with
  | |- context [bind ?m _ w] => set (lookup := m)
  end.
  destruct (lookup w) as [[[r|cid]|e|] w1] eqn:E.
  - left. exists (Ret r), w1. intros batch.
    now rewrite (bind_returns _ _ _ _ _ E).
  - destruct (get_channel_video_ids remote fuel self cid default_max_results w1)
      as [[ids|e|] w2] eqn:E2.
    + right. exists ids, (ChannelResult cid), w2. split.
      * apply channel_ids_bound in E2; auto;
          unfold default_max_results in *; lia.
      * intros batch. rewrite (bind_returns _ _ _ _ _ E).
        now rewrite (bind_returns _ _ _ _ _ E2).
    + left. exists (Raise e), w2. intros batch.
      rewrite (bind_returns _ _ _ _ _ E).
      now rewrite (bind_raises _ _ _ _ _ E2).
    + left. exists OutOfFuel, w2. intros batch.
      rewrite (bind_returns _ _ _ _ _ E).
      now rewrite (bind_out_of_fuel _ _ _ _ E2).
  - left. exists (Raise e), w1. intros batch.
    now rewrite (bind_raises _ _ _ _ _ E).
  - left. exists OutOfFuel, w1. intros batch.
    now rewrite (bind_out_of_fuel _ _ _ _ E).
Qed.

End WithRemote.

(** A playlist of 120 items: the batch method receives 50 of them. *)
Lemma dispatch_hands_over_at_most_50_witness :
  honours_page_size Scenario.playlist_of_120
  /\ ((exists r w', forall batch,
         dispatch Scenario.playlist_of_120 2 batch (init (Some "key"))
           "https://www.youtube.com/playlist?list=PL0" None
           Scenario.empty_world = (r, w'))
      \/ (exists ids wrap w1,
            (List.length ids <= 50)%nat
            /\ forall batch,
                 dispatch Scenario.playlist_of_120 2 batch (init (Some "key"))
                   "https://www.youtube.com/playlist?list=PL0" None
                   Scenario.empty_world
                 = (ts <- batch ids None ;; ret (wrap ts)) w1)).
Proof.
  split; [apply paged_server_honours|].
  exact (dispatch_hands_over_at_most_50 Scenario.playlist_of_120 2
           (init (Some "key")) "https://www.youtube.com/playlist?list=PL0"
           None Scenario.empty_world
           (paged_server_honours Scenario.full_pages
              (Scenario.collection 120))).
Defined.

(** In that run the list handed over is the first 50 items. *)
Example playlist_of_120_hands_over_50 :
  forall batch,
    dispatch Scenario.playlist_of_120 2 batch (init (Some "key"))
      "https://www.youtube.com/playlist?list=PL0" None Scenario.empty_world
    = (ts <- batch (firstn 50 (Scenario.collection 120)) None ;;
       ret (PlaylistResult "PL0" ts))
        (snd (get_playlist_video_ids Scenario.playlist_of_120 2
                (init (Some "key")) "PL0" 50 Scenario.empty_world)).
Proof. intros batch. reflexivity. Qed.

End Dispatcher.
